(** * small-backend: tenants and shifts over HTTP

    A shallow embedding of [main.go] (the handlers, the CORS wrapper and the
    route table of [main]) together with the two tables of the SQL schema
    the handlers query.  The handlers are written as state transformers
    over a [World]: the response writer of the request, the tables of the
    store, and the log of the statements sent to the store. *)

From Stdlib Require Import Ascii String ZArith Lia.
From stdpp Require Import base decidable option list strings gmap sorting.

Set Warnings "-register-all".

Local Open Scope string_scope.
Local Open Scope Z_scope.
Local Open Scope list_scope.

(** ** Values on the wire *)

(** [time.Time] and [timestamptz]: an instant, counted in nanoseconds from
    the Unix epoch. *)
Definition Time := Z.

(** A JSON value as [json.Decoder] reads it from a request body.  A number
    keeps its literal: every handler field is a string, so no number is ever
    converted. *)
Inductive json :=
| JNull
| JBool (b : bool)
| JNum (lit : string)
| JStr (s : string)
| JArr (items : list json)
| JObj (members : list (string * json)).

(** A JSON document as [json.Encoder] writes it.  [ETime t] is the string
    [time.Time] marshals to (RFC 3339 with nanoseconds); the members of an
    [EObj] come in the order the encoder emits them. *)
Inductive enc :=
| ENull
| EStr (s : string)
| ETime (t : Time)
| EArr (items : list enc)
| EObj (members : list (string * enc)).

(** A Go slice: [None] is the nil slice of [var out []T], [Some l] a slice
    that [append] has allocated. *)
Definition slice (A : Type) := option (list A).

Definition append {A} (s : slice A) (x : A) : slice A :=
  match s with
  | None => Some [x]
  | Some l => Some (l ++ [x])
  end.

(** encoding/json: a nil slice encodes as [null], any other slice as an
    array. *)
Definition encSlice {A} (f : A → enc) (s : slice A) : enc :=
  match s with
  | None => ENull
  | Some l => EArr (f <$> l)
  end.

(** ** Entities *)

Record Tenant := mkTenant {
  Tenant_ID : string;
  Tenant_Name : string;
  Tenant_CreatedAt : Time
}.

(** The struct declares the field [StartedAt] with the JSON name
    [starts_at]; the handlers scan the [starts_at] column into it. *)
Record Shift := mkShift {
  Shift_ID : string;
  Shift_TenantID : string;
  Shift_Title : string;
  Shift_StartedAt : option Time;
  Shift_EndsAt : option Time;
  Shift_CreatedAt : Time
}.

(** The zero [time.Time]: January 1 of year 1, 00:00 UTC. *)
Definition zeroTime : Time := -62135596800000000000.

Definition zeroTenant : Tenant := mkTenant "" "" zeroTime.

Definition encTenant (t : Tenant) : enc :=
  EObj [("id", EStr (Tenant_ID t));
        ("name", EStr (Tenant_Name t));
        ("created_at", ETime (Tenant_CreatedAt t))].

(** [omitempty] on a pointer field: a nil pointer leaves the member out. *)
Definition omitempty (k : string) (o : option Time) : list (string * enc) :=
  match o with
  | None => []
  | Some t => [(k, ETime t)]
  end.

Definition encShift (s : Shift) : enc :=
  EObj ([("id", EStr (Shift_ID s));
         ("tenant_id", EStr (Shift_TenantID s));
         ("title", EStr (Shift_Title s))]
        ++ omitempty "starts_at" (Shift_StartedAt s)
        ++ omitempty "ends_at" (Shift_EndsAt s)
        ++ [("created_at", ETime (Shift_CreatedAt s))]).

(** ** http.ResponseWriter *)

(** What a handler writes into the body: raw bytes, or one document of
    [Encoder.Encode] (the document and its newline). *)
Inductive Chunk :=
| Raw (s : string)
| Doc (d : enc).

(** [rw_header] is the live map of [w.Header()].  The first [WriteHeader]
    fixes the status and the headers that go out ([rw_sent]); a later
    [WriteHeader] changes nothing and is only recorded in [rw_superfluous],
    as net/http logs it. *)
Record ResponseWriter := mkRW {
  rw_header : gmap string string;
  rw_sent : option (Z * gmap string string);
  rw_superfluous : list Z;
  rw_body : list Chunk
}.

Definition newResponseWriter : ResponseWriter := mkRW ∅ None [] [].

Definition rw_Set (k v : string) (w : ResponseWriter) : ResponseWriter :=
  mkRW (<[k:=v]> (rw_header w)) (rw_sent w) (rw_superfluous w) (rw_body w).

Definition rw_WriteHeader (code : Z) (w : ResponseWriter) : ResponseWriter :=
  match rw_sent w with
  | None => mkRW (rw_header w) (Some (code, rw_header w)) (rw_superfluous w) (rw_body w)
  | Some _ => mkRW (rw_header w) (rw_sent w) (rw_superfluous w ++ [code]) (rw_body w)
  end.

(** [Write] sends the header with status 200 when none was sent yet. *)
Definition rw_Write (c : Chunk) (w : ResponseWriter) : ResponseWriter :=
  let w' := match rw_sent w with
            | None => mkRW (rw_header w) (Some (200, rw_header w)) (rw_superfluous w) (rw_body w)
            | Some _ => w
            end in
  mkRW (rw_header w') (rw_sent w') (rw_superfluous w') (rw_body w' ++ [c]).

Definition rw_status (w : ResponseWriter) : option Z := fst <$> rw_sent w.

Definition rw_sentHeader (w : ResponseWriter) (k : string) : option string :=
  rw_sent w ≫= λ s, snd s !! k.

(** ** Requests *)

(** [Query] is the parsed query string, one pair per parameter in the order
    of the URL.  [Body] is the first JSON value [json.Decoder] can read from
    the request body, [None] when the bytes are not JSON (or the body is
    empty). *)
Record Request := mkRequest {
  Method : string;
  Path : string;
  Query : list (string * string);
  Body : option json
}.

(** [url.Values.Get]: the first value of the key, the empty string when the
    key is absent. *)
Fixpoint url_Get (q : list (string * string)) (key : string) : string :=
  match q with
  | [] => ""
  | (k, v) :: rest => if decide (k = key) then v else url_Get rest key
  end.

Definition url_Has (q : list (string * string)) (key : string) : bool :=
  bool_decide (key ∈ q.*1).

(** ** Decoding a body into the handler's struct *)

Definition lowerASCII (a : Ascii.ascii) : Ascii.ascii :=
  let n := Ascii.N_of_ascii a in
  if ((65 <=? n) && (n <=? 90))%N then Ascii.ascii_of_N (n + 32) else a.

Definition isByte (a : Ascii.ascii) (n : N) : bool := (Ascii.N_of_ascii a =? n)%N.

(** encoding/json matches an object key with a field name exactly, or else
    up to Unicode simple case folding.  On top of the ASCII letters only two
    runes fold to one: U+017F (long s, bytes C5 BF) and U+212A (Kelvin sign,
    bytes E2 84 AA). *)
Fixpoint foldName (s : string) : string :=
  match s with
  | EmptyString => EmptyString
  | String a s1 =>
    match s1 with
    | String b s2 =>
      if isByte a 197 && isByte b 191 then String "s"%char (foldName s2)
      else
        match s2 with
        | String c s3 =>
          if isByte a 226 && isByte b 132 && isByte c 170
          then String "k"%char (foldName s3)
          else String (lowerASCII a) (foldName s1)
        | EmptyString => String (lowerASCII a) (foldName s1)
        end
    | EmptyString => String (lowerASCII a) EmptyString
    end
  end.

Definition fieldMatch (field key : string) : bool :=
  bool_decide (key = field) || bool_decide (foldName key = foldName field).

(** A JSON value stored into a [string] field: [null] leaves the field as it
    is, anything but a string is an [UnmarshalTypeError]. *)
Definition setString (v : json) (old : string) : option string :=
  match v with
  | JStr s => Some s
  | JNull => Some old
  | _ => None
  end.

(** A JSON value stored into a [*string] field: [null] sets the nil
    pointer. *)
Definition setStringPtr (v : json) : option (option string) :=
  match v with
  | JStr s => Some (Some s)
  | JNull => Some None
  | _ => None
  end.

(** The body struct of [createTenant], with its one field [name]. *)
Record TenantBody := mkTenantBody { body_Name : string }.

(** The body struct of [createShift]. *)
Record ShiftBody := mkShiftBody {
  body_TenantID : string;
  body_Title : string;
  body_StartsAt : option string;
  body_EndsAt : option string
}.

Definition tenantMember (acc : option TenantBody) (kv : string * json)
  : option TenantBody :=
  b ← acc;
  if fieldMatch "name" kv.1
  then mkTenantBody <$> setString kv.2 (body_Name b)
  else Some b.

Definition shiftMember (acc : option ShiftBody) (kv : string * json)
  : option ShiftBody :=
  b ← acc;
  if fieldMatch "tenant_id" kv.1 then
    (λ s, mkShiftBody s (body_Title b) (body_StartsAt b) (body_EndsAt b))
      <$> setString kv.2 (body_TenantID b)
  else if fieldMatch "title" kv.1 then
    (λ s, mkShiftBody (body_TenantID b) s (body_StartsAt b) (body_EndsAt b))
      <$> setString kv.2 (body_Title b)
  else if fieldMatch "starts_at" kv.1 then
    (λ p, mkShiftBody (body_TenantID b) (body_Title b) p (body_EndsAt b))
      <$> setStringPtr kv.2
  else if fieldMatch "ends_at" kv.1 then
    (λ p, mkShiftBody (body_TenantID b) (body_Title b) (body_StartsAt b) p)
      <$> setStringPtr kv.2
  else Some b.

(** [Decode(&body)] into a zero-valued struct: [None] is a non-nil error.
    The members of an object are stored in their order (a repeated key
    overwrites), unknown keys are skipped, and a value of the wrong type
    makes the call fail; [null] at the top leaves the struct zero. *)
Definition decodeInto {B} (zero : B) (member : option B → string * json → option B)
    (body : option json) : option B :=
  match body with
  | None => None
  | Some JNull => Some zero
  | Some (JObj ms) => foldl member (Some zero) ms
  | Some _ => None
  end.

Definition decodeTenantBody : option json → option TenantBody :=
  decodeInto (mkTenantBody "") tenantMember.

Definition decodeShiftBody : option json → option ShiftBody :=
  decodeInto (mkShiftBody "" "" None None) shiftMember.

(** ** The store *)

(** The two tables of the schema.  Rows are kept in insertion order. *)
Record DB := mkDB {
  tenants : list Tenant;
  shifts : list Shift
}.

(** The statements the handlers send, with their parameters. *)
Inductive Stmt :=
| SelectTenants
| InsertTenant (name : string)
| SelectShifts (tenantID : option string)
| InsertShift (tenantID title : string) (st et : option Time).

(** What the store does outside the handler's control during one request:
    [env_execErr] makes the statement fail before it has any effect
    (connection lost, request cancelled, a parameter the server rejects);
    [env_scanErr] makes [rows.Scan] fail at the row of that index and
    [env_rowsErr] is what [rows.Err] reports after the loop; [env_uuid] and
    [env_now] are the values of [uuid_generate_v4()] and [now()]. *)
Record Env := mkEnv {
  env_execErr : option string;
  env_scanErr : option (nat * string);
  env_rowsErr : option string;
  env_uuid : string;
  env_now : Time
}.

(** [ORDER BY created_at DESC]. *)
Definition newestFirst {A} (created : A → Time) : relation A :=
  λ a b, created b ≤ created a.

#[global] Instance newestFirst_dec {A} (created : A → Time) :
  RelDecision (newestFirst created).
Proof. intros a b. unfold newestFirst. apply _. Defined.

Definition orderByCreatedDesc {A} (created : A → Time) (l : list A) : list A :=
  merge_sort (newestFirst created) l.

(** The result of [Query]: the rows, and where reading them will fail. *)
Record Rows (A : Type) := mkRows {
  rows_data : list A;
  rows_scanErr : option (nat * string);
  rows_err : option string
}.
Arguments mkRows {A} _ _ _.
Arguments rows_data {A} _.
Arguments rows_scanErr {A} _.
Arguments rows_err {A} _.

(** [SELECT id::text, name, created_at FROM tenants ORDER BY created_at DESC] *)
Definition selectTenants (env : Env) (db : DB) : string + Rows Tenant :=
  match env_execErr env with
  | Some e => inl e
  | None => inr (mkRows (orderByCreatedDesc Tenant_CreatedAt (tenants db))
                        (env_scanErr env) (env_rowsErr env))
  end.

(** [SELECT ... FROM shifts [WHERE tenant_id = $1] ORDER BY created_at DESC] *)
Definition selectShifts (env : Env) (db : DB) (tenantID : option string)
  : string + Rows Shift :=
  match env_execErr env with
  | Some e => inl e
  | None =>
    let rows := match tenantID with
                | Some x => filter (λ s, Shift_TenantID s = x) (shifts db)
                | None => shifts db
                end in
    inr (mkRows (orderByCreatedDesc Shift_CreatedAt rows)
                (env_scanErr env) (env_rowsErr env))
  end.

(** [INSERT INTO tenants (name) VALUES ($1) RETURNING ...]: [id] and
    [created_at] take their defaults; [id] is the primary key. *)
Definition insertTenant (env : Env) (db : DB) (name : string)
  : (string + Tenant) * DB :=
  match env_execErr env with
  | Some e => (inl e, db)
  | None =>
    if bool_decide (env_uuid env ∈ (Tenant_ID <$> tenants db))
    then (inl "duplicate key value violates unique constraint tenants_pkey", db)
    else
      let t := mkTenant (env_uuid env) name (env_now env) in
      (inr t, mkDB (tenants db ++ [t]) (shifts db))
  end.

(** [INSERT INTO shifts (tenant_id, title, starts_at, ends_at) ...]:
    [tenant_id] REFERENCES [tenants(id)]. *)
Definition insertShift (env : Env) (db : DB) (tenantID title : string)
    (st et : option Time) : (string + Shift) * DB :=
  match env_execErr env with
  | Some e => (inl e, db)
  | None =>
    if bool_decide (env_uuid env ∈ (Shift_ID <$> shifts db))
    then (inl "duplicate key value violates unique constraint shifts_pkey", db)
    else if bool_decide (tenantID ∈ (Tenant_ID <$> tenants db))
    then
      let s := mkShift (env_uuid env) tenantID title st et (env_now env) in
      (inr s, mkDB (tenants db) (shifts db ++ [s]))
    else
      (inl "insert on table shifts violates foreign key constraint shifts_tenant_id_fkey", db)
  end.

(** ** The state a handler runs in *)

Record World := mkWorld {
  resp : ResponseWriter;
  tables : DB;
  issued : list Stmt
}.

Definition onResp (f : ResponseWriter → ResponseWriter) (σ : World) : World :=
  mkWorld (f (resp σ)) (tables σ) (issued σ).

Definition send (q : Stmt) (σ : World) : World :=
  mkWorld (resp σ) (tables σ) (issued σ ++ [q]).

(** [a.DB.Query] and [a.DB.QueryRow(...).Scan(...)], statement by
    statement. *)
Definition Query_tenants (env : Env) (σ : World) : (string + Rows Tenant) * World :=
  (selectTenants env (tables σ), send SelectTenants σ).

Definition Query_shifts (env : Env) (tenantID : option string) (σ : World)
  : (string + Rows Shift) * World :=
  (selectShifts env (tables σ) tenantID, send (SelectShifts tenantID) σ).

Definition QueryRow_insertTenant (env : Env) (name : string) (σ : World)
  : (string + Tenant) * World :=
  let '(res, db) := insertTenant env (tables σ) name in
  (res, mkWorld (resp σ) db (issued σ ++ [InsertTenant name])).

Definition QueryRow_insertShift (env : Env) (tenantID title : string)
    (st et : option Time) (σ : World) : (string + Shift) * World :=
  let '(res, db) := insertShift env (tables σ) tenantID title st et in
  (res, mkWorld (resp σ) db (issued σ ++ [InsertShift tenantID title st et])).

(** The loop [for rows.Next() { rows.Scan(...); out = append(out, x) }]:
    the error of the first failing [Scan], or the slice built. *)
Fixpoint scanRows {A} (scanErr : option (nat * string)) (i : nat)
    (data : list A) (out : slice A) : string + slice A :=
  match data with
  | [] => inr out
  | x :: rest =>
    match scanErr with
    | Some (n, e) =>
      if bool_decide (n = i) then inl e
      else scanRows scanErr (S i) rest (append out x)
    | None => scanRows scanErr (S i) rest (append out x)
    end
  end.

(** ** Handlers *)

Definition Handler := Request → World → World.

Definition jsonOK (v : enc) (σ : World) : World :=
  let σ := onResp (rw_Set "Content-Type" "application/json") σ in
  let σ := onResp (rw_WriteHeader 200) σ in
  onResp (rw_Write (Doc v)) σ.

(** Modelled from the spec: [jsonError] is called on every failure path of
    [main.go] and its declaration is not in the file.  The spec: all
    non-empty responses are [application/json], and an error response is a
    JSON object with a single [error] string field, under the status code
    the handler gives. *)
Definition jsonError (code : Z) (m : string) (σ : World) : World :=
  let σ := onResp (rw_Set "Content-Type" "application/json") σ in
  let σ := onResp (rw_WriteHeader code) σ in
  onResp (rw_Write (Doc (EObj [("error", EStr m)]))) σ.

Definition withCORS (next : Handler) : Handler := λ r σ,
  let σ := onResp (rw_Set "Access-Control-Allow-Origin" "*") σ in
  let σ := onResp (rw_Set "Access-Control-Allow-Headers" "Content-Type, Authorization") σ in
  let σ := onResp (rw_Set "Access-Control-Allow-Methods" "GET, POST, OPTIONS") σ in
  if bool_decide (Method r = "OPTIONS") then onResp (rw_WriteHeader 204) σ
  else next r σ.

Definition healthz : Handler := λ r σ, onResp (rw_Write (Raw "ok")) σ.

Definition listTenants (env : Env) : Handler := λ r σ,
  let '(res, σ) := Query_tenants env σ in
  match res with
  | inl e => jsonError 500 e σ
  | inr rows =>
    match scanRows (rows_scanErr rows) 0 (rows_data rows) None with
    | inl e => jsonError 500 e σ
    | inr out =>
      match rows_err rows with
      | Some e => jsonError 500 e σ
      | None => jsonOK (encSlice encTenant out) σ
      end
    end
  end.

Definition listShifts (env : Env) : Handler := λ r σ,
  let tenantID := url_Get (Query r) "tenant_id" in
  let args := if bool_decide (tenantID ≠ "") then Some tenantID else None in
  let '(res, σ) := Query_shifts env args σ in
  match res with
  | inl e => jsonError 500 e σ
  | inr rows =>
    match scanRows (rows_scanErr rows) 0 (rows_data rows) None with
    | inl e => jsonError 500 e σ
    | inr out =>
      match rows_err rows with
      | Some e => jsonError 500 e σ
      | None => jsonOK (encSlice encShift out) σ
      end
    end
  end.

Section handlers.
(** [msg] is the identifier [jsonCreated] encodes; [main.go] does not
    declare it, so its encoding is left open. *)
Variable msg : enc.
(** [time.Parse(time.RFC3339, s)]: [None] is a non-nil error. *)
Variable time_Parse_RFC3339 : string → option Time.

(** The parameter [v] is not used: the body written is the object with the
    single member [error]. *)
Definition jsonCreated (v : enc) (σ : World) : World :=
  let σ := onResp (rw_Set "Content-Type" "application/json") σ in
  let σ := onResp (rw_WriteHeader 201) σ in
  onResp (rw_Write (Doc (EObj [("error", msg)]))) σ.

(** After a failed insert the handler does not return: [jsonCreated] runs
    on the same writer, with [t] still zero. *)
Definition createTenant (env : Env) : Handler := λ r σ,
  match decodeTenantBody (Body r) with
  | None => jsonError 400 "invalid json" σ
  | Some body =>
    if bool_decide (Z.of_nat (String.length (body_Name body)) < 2)
    then jsonError 422 "name must be at least 2 characters" σ
    else
      let '(res, σ) := QueryRow_insertTenant env (body_Name body) σ in
      match res with
      | inl e =>
        let σ := jsonError 500 e σ in
        jsonCreated (encTenant zeroTenant) σ
      | inr t => jsonCreated (encTenant t) σ
      end
  end.

(** The block the handler runs for [starts_at] and for [ends_at]: the value
    is parsed only when the pointer is not nil and the string is not empty.
    The outer [None] is the parse error, [Some None] the pointer left
    nil. *)
Definition optionalTime (p : option string) : option (option Time) :=
  match p with
  | Some s =>
    if bool_decide (s ≠ "") then Some <$> time_Parse_RFC3339 s else Some None
  | None => Some None
  end.

Definition createShift (env : Env) : Handler := λ r σ,
  match decodeShiftBody (Body r) with
  | None => jsonError 400 "invalid json" σ
  | Some body =>
    if bool_decide (body_TenantID body = "") || bool_decide (body_Title body = "")
    then jsonError 422 "tenant_id and title required" σ
    else
      match optionalTime (body_StartsAt body) with
      | None => jsonError 422 "invalid starts_at format (RFC3339)" σ
      | Some st =>
        match optionalTime (body_EndsAt body) with
        | None => jsonError 422 "invalid ends_at format (RFC3339)" σ
        | Some et =>
          let '(res, σ) :=
            QueryRow_insertShift env (body_TenantID body) (body_Title body) st et σ in
          match res with
          | inl e => jsonError 500 e σ
          | inr s => jsonCreated (encShift s) σ
          end
        end
      end
  end.
End handlers.

(** ** The route table of [main] and [http.ServeMux] *)

Inductive Route := Healthz | ListTenants | CreateTenant | ListShifts | CreateShift.

(** The patterns registered on the mux, in the order of [main]: the method
    of the pattern ([None] when the pattern names none), its path, and the
    handler it maps to. *)
Definition patterns : list (option string * string * Route) :=
  [ (None, "/healthz", Healthz);
    (Some "GET", "/api/tenants", ListTenants);
    (Some "POST", "/api/tenants", CreateTenant);
    (Some "GET", "/api/shifts", ListShifts);
    (Some "POST", "/api/shifts", CreateShift) ].

(** A pattern without method matches every method; a [GET] pattern also
    matches [HEAD]. *)
Definition methodMatches (pm : option string) (m : string) : bool :=
  match pm with
  | None => true
  | Some p => bool_decide (p = m) || (bool_decide (p = "GET") && bool_decide (m = "HEAD"))
  end.

Definition patternMatches (m p : string) (pat : option string * string * Route) : bool :=
  bool_decide (pat.1.2 = p) && methodMatches pat.1.1 m.

(** None of the patterns has a wildcard or a trailing slash: a pattern
    matches a (clean) request path when the two are equal. *)
Definition findHandler (m p : string) : option Route :=
  snd <$> head (List.filter (patternMatches m p) patterns).

Definition methodLe : relation string := λ a b, String.leb a b = true.

#[global] Instance methodLe_dec : RelDecision methodLe.
Proof. intros a b. unfold methodLe. apply _. Defined.

(** The methods of the patterns that match the path, sorted, for the
    [Allow] header. *)
Definition matchingMethods (p : string) : list string :=
  let ms := omap (λ pat : option string * string * Route,
                    if bool_decide (pat.1.2 = p) then pat.1.1 else None) patterns in
  let ms := if bool_decide ("GET" ∈ ms) then "HEAD" :: ms else ms in
  merge_sort methodLe (remove_dups ms).

Fixpoint join (sep : string) (l : list string) : string :=
  match l with
  | [] => ""
  | [x] => x
  | x :: rest => x +:+ sep +:+ join sep rest
  end.

Definition newline : string := String (Ascii.ascii_of_nat 10) EmptyString.

(** [http.Error] *)
Definition http_Error (m : string) (code : Z) (σ : World) : World :=
  let σ := onResp (rw_Set "Content-Type" "text/plain; charset=utf-8") σ in
  let σ := onResp (rw_Set "X-Content-Type-Options" "nosniff") σ in
  let σ := onResp (rw_WriteHeader code) σ in
  onResp (rw_Write (Raw (m +:+ newline))) σ.

Section server.
Variable msg : enc.
Variable time_Parse_RFC3339 : string → option Time.

Definition handlerOf (env : Env) (rt : Route) : Handler :=
  match rt with
  | Healthz => healthz
  | ListTenants => withCORS (listTenants env)
  | CreateTenant => withCORS (createTenant msg env)
  | ListShifts => withCORS (listShifts env)
  | CreateShift => withCORS (createShift msg time_Parse_RFC3339 env)
  end.

(** [mux.ServeHTTP]: the handler of the matching pattern; with no match,
    405 and an [Allow] header when the path is registered under other
    methods, 404 otherwise. *)
Definition ServeHTTP (env : Env) : Handler := λ r σ,
  match findHandler (Method r) (Path r) with
  | Some rt => handlerOf env rt r σ
  | None =>
    match matchingMethods (Path r) with
    | [] => http_Error "404 page not found" 404 σ
    | ms =>
      let σ := onResp (rw_Set "Allow" (join ", " ms)) σ in
      http_Error "Method Not Allowed" 405 σ
    end
  end.

(** One request served on a fresh response writer. *)
Definition serve (env : Env) (db : DB) (r : Request) : World :=
  ServeHTTP env r (mkWorld newResponseWriter db []).
End server.

(** ** What a client observes *)

Definition status (σ : World) : option Z := rw_status (resp σ).
Definition body (σ : World) : list Chunk := rw_body (resp σ).
Definition sentHeader (σ : World) (k : string) : option string :=
  rw_sentHeader (resp σ) k.

(** The state a request starts in: nothing written, nothing sent to the
    store (the world [serve] runs the mux in). *)
Definition fresh (db : DB) : World := mkWorld newResponseWriter db [].

(** The body [jsonError] writes. *)
Definition errorDoc (m : string) : Chunk := Doc (EObj [("error", EStr m)]).

(** What the loop over the rows leaves in [out]: the nil slice when there
    was no row, the rows in their order otherwise. *)
Definition collected {A} (rows : list A) : slice A :=
  match rows with
  | [] => None
  | _ => Some rows
  end.

(** The store answers the statement and every row is read. *)
Definition noFault (env : Env) : Prop :=
  env_execErr env = None ∧ env_scanErr env = None ∧ env_rowsErr env = None.

(** The response of a list endpoint: 200 with the document [d], or 500
    with an error object; 200 whenever the store does not fail. *)
Definition listResponse (env : Env) (σ : World) (d : enc) : Prop :=
  (noFault env → status σ = Some 200)
  ∧ ((status σ = Some 200 ∧ body σ = [Doc d])
     ∨ (status σ = Some 500 ∧ ∃ e, body σ = [errorDoc e])).

(** The three header writes of [withCORS], which come before any handler
    code. *)
Definition corsHeaders (σ : World) : World :=
  let σ := onResp (rw_Set "Access-Control-Allow-Origin" "*") σ in
  let σ := onResp (rw_Set "Access-Control-Allow-Headers" "Content-Type, Authorization") σ in
  onResp (rw_Set "Access-Control-Allow-Methods" "GET, POST, OPTIONS") σ.

(** ** The validation order of the spec *)







(** ** A timestamp parser to run the handlers with *)

(** The handlers are stated for any [time.Parse]; to evaluate them on a
    request one is needed.  [rfc3339] reads the strict grammar of RFC 3339,
    [YYYY-MM-DDTHH:MM:SS[.fraction](Z|±HH:MM)], with the range checks on
    every field, into nanoseconds from the epoch. *)
Definition digitVal (a : Ascii.ascii) : option Z :=
  let n := Z.of_N (Ascii.N_of_ascii a) in
  if (48 <=? n) && (n <=? 57) then Some (n - 48) else None.

Fixpoint parseDigits (l : list Ascii.ascii) (acc : Z) : option Z :=
  match l with
  | [] => Some acc
  | a :: l => d ← digitVal a; parseDigits l (acc * 10 + d)
  end.

Definition parseUint (l : list Ascii.ascii) (lo hi : Z) : option Z :=
  x ← parseDigits l 0;
  if (lo <=? x) && (x <=? hi) then Some x else None.

Definition isLeap (y : Z) : bool :=
  (y mod 4 =? 0) && (negb (y mod 100 =? 0) || (y mod 400 =? 0)).

Definition daysIn (m y : Z) : Z :=
  if m =? 2 then (if isLeap y then 29 else 28)
  else if (m =? 4) || (m =? 6) || (m =? 9) || (m =? 11) then 30
  else 31.

(** Days from 1970-01-01 to the given civil date. *)
Definition daysFromCivil (y m d : Z) : Z :=
  let y := if m <=? 2 then y - 1 else y in
  let era := y / 400 in
  let yoe := y - era * 400 in
  let doy := (153 * (if 2 <? m then m - 3 else m + 9) + 2) / 5 + d - 1 in
  let doe := yoe * 365 + yoe / 4 - yoe / 100 + doy in
  era * 146097 + doe - 719468.

Fixpoint spanDigits (l : list Ascii.ascii) : list Z * list Ascii.ascii :=
  match l with
  | [] => ([], [])
  | a :: tl =>
    match digitVal a with
    | Some d => let '(ds, rest) := spanDigits tl in (d :: ds, rest)
    | None => ([], l)
    end
  end.

(** The fractional second, cut to nanoseconds, and what follows it. *)
Definition fraction (l : list Ascii.ascii) : Z * list Ascii.ascii :=
  match l with
  | a :: tl =>
    if isByte a 46 then
      let '(ds, rest) := spanDigits tl in
      match ds with
      | [] => (0, l)
      | _ =>
        let ds := take 9 ds in
        (foldl (λ acc d, acc * 10 + d) 0 ds * 10 ^ (9 - Z.of_nat (length ds)), rest)
      end
    else (0, l)
  | [] => (0, l)
  end.

(** The zone: [Z], or a signed [HH:MM], in seconds east of UTC. *)
Definition zoneOffset (l : list Ascii.ascii) : option Z :=
  match l with
  | [z] => if isByte z 90 then Some 0 else None
  | [sg; h1; h2; c; m1; m2] =>
    hr ← parseUint [h1; h2] 0 23;
    mm ← parseUint [m1; m2] 0 59;
    if isByte c 58 then
      if isByte sg 43 then Some ((hr * 60 + mm) * 60)
      else if isByte sg 45 then Some (- ((hr * 60 + mm) * 60))
      else None
    else None
  | _ => None
  end.

Definition byteAt (l : list Ascii.ascii) (i : nat) (n : N) : bool :=
  match l !! i with
  | Some a => isByte a n
  | None => false
  end.

Definition rfc3339 (s : string) : option Time :=
  let l := list_ascii_of_string s in
  year ← parseUint (take 4 l) 0 9999;
  month ← parseUint (take 2 (drop 5 l)) 1 12;
  day ← parseUint (take 2 (drop 8 l)) 1 (daysIn month year);
  hour ← parseUint (take 2 (drop 11 l)) 0 23;
  min ← parseUint (take 2 (drop 14 l)) 0 59;
  sec ← parseUint (take 2 (drop 17 l)) 0 59;
  if (19 <=? Z.of_nat (length l))
     && byteAt l 4 45 && byteAt l 7 45 && byteAt l 10 84
     && byteAt l 13 58 && byteAt l 16 58
  then
    let '(nsec, rest) := fraction (drop 19 l) in
    off ← zoneOffset rest;
    Some ((daysFromCivil year month day * 86400
           + hour * 3600 + min * 60 + sec - off) * 1000000000 + nsec)
  else None.

(** ** Sample stores and requests *)

Definition envOK (uuid : string) (now : Time) : Env := mkEnv None None None uuid now.
Definition envDown (e : string) : Env := mkEnv (Some e) None None "" 0.

Definition emptyDB : DB := mkDB [] [].

Definition acme : Tenant := mkTenant "t-1" "Acme Security" 1000.
Definition bolt : Tenant := mkTenant "t-2" "Bolt Patrol" 1500.
Definition nightShift : Shift := mkShift "s-1" "t-1" "Night" None None 2000.
Definition dayShift : Shift := mkShift "s-2" "t-2" "Day" None None 2500.
Definition acmeDB : DB := mkDB [acme] [nightShift].
Definition twoTenantsDB : DB := mkDB [acme; bolt] [nightShift; dayShift].

(** A value for the undeclared [msg]. *)
Definition sampleMsg : enc := EStr "msg".

Definition obj (members : list (string * json)) : option json := Some (JObj members).

Definition POST (path : string) (b : option json) : Request := mkRequest "POST" path [] b.
Definition GET (path : string) (q : list (string * string)) : Request :=
  mkRequest "GET" path q None.
Definition OPTIONS (path : string) : Request := mkRequest "OPTIONS" path [] None.

(** The server with the sample [msg] and the RFC 3339 parser. *)
Definition run : Env → DB → Request → World := serve sampleMsg rfc3339.

Definition shortNameBody : json := JObj [("name", JStr "A")].
Definition acmeBody : json := JObj [("name", JStr "Acme Security")].


(** A shift whose [starts_at] is not a timestamp. *)
Definition badStartsBody : json :=
  JObj [("tenant_id", JStr "t-1"); ("title", JStr "Night"); ("starts_at", JStr "tomorrow")].



(** ** The constraints of the schema *)

(** [id uuid PRIMARY KEY] on both tables, and
    [tenant_id uuid NOT NULL REFERENCES tenants(id)] on shifts. *)
Definition integrity (db : DB) : Prop :=
  NoDup (Tenant_ID <$> tenants db)
  ∧ NoDup (Shift_ID <$> shifts db)
  ∧ Forall (λ s, Shift_TenantID s ∈ (Tenant_ID <$> tenants db)) (shifts db).

(** ** Requests one after the other *)

(** The tables after serving the requests of the list in order, each with
    what the store does during it. *)
Definition serveAll (msg : enc) (parse : string → option Time)
    (l : list (Env * Request)) (db : DB) : DB :=
  foldl (λ db er, tables (serve msg parse er.1 db er.2)) db l.

(** ** The ways a request ends *)

(** One constructor for each return point of the mux and of the handlers,
    with the final state it leaves; [serve_outcome] shows that a request
    always ends in one of them. *)
Inductive Outcome (msg : enc) (env : Env) (db : DB) (r : Request) : World → Prop :=
| served_healthz :
    Path r = "/healthz" →
    Outcome msg env db r (onResp (rw_Write (Raw "ok")) (fresh db))
| served_not_found :
    Path r ≠ "/healthz" → Path r ≠ "/api/tenants" → Path r ≠ "/api/shifts" →
    Outcome msg env db r (http_Error "404 page not found" 404 (fresh db))
| served_not_allowed :
    Path r = "/api/tenants" ∨ Path r = "/api/shifts" →
    Method r ≠ "GET" → Method r ≠ "HEAD" → Method r ≠ "POST" →
    Outcome msg env db r
      (http_Error "Method Not Allowed" 405
         (onResp (rw_Set "Allow" "GET, HEAD, POST") (fresh db)))
| served_rejected code m :
    Method r = "POST" →
    code = 400 ∨ code = 422 →
    Outcome msg env db r (jsonError code m (corsHeaders (fresh db)))
| served_store_error q e :
    Outcome msg env db r (jsonError 500 e (send q (corsHeaders (fresh db))))
| served_list q d :
    Method r = "GET" ∨ Method r = "HEAD" →
    Outcome msg env db r (jsonOK d (send q (corsHeaders (fresh db))))
| served_tenant_error name e :
    Method r = "POST" → Path r = "/api/tenants" →
    Outcome msg env db r
      (jsonCreated msg (encTenant zeroTenant)
         (jsonError 500 e (send (InsertTenant name) (corsHeaders (fresh db)))))
| served_tenant_created name :
    Method r = "POST" → Path r = "/api/tenants" →
    env_uuid env ∉ (Tenant_ID <$> tenants db) →
    Outcome msg env db r
      (jsonCreated msg (encTenant zeroTenant)
         (mkWorld (resp (corsHeaders (fresh db)))
            (mkDB (tenants db ++ [mkTenant (env_uuid env) name (env_now env)]) (shifts db))
            [InsertTenant name]))
| served_shift_created tid title st et :
    Method r = "POST" → Path r = "/api/shifts" →
    tid ∈ (Tenant_ID <$> tenants db) →
    env_uuid env ∉ (Shift_ID <$> shifts db) →
    Outcome msg env db r
      (jsonCreated msg (encTenant zeroTenant)
         (mkWorld (resp (corsHeaders (fresh db)))
            (mkDB (tenants db)
               (shifts db ++ [mkShift (env_uuid env) tid title st et (env_now env)]))
            [InsertShift tid title st et])).

(** ** More sample requests *)

(** A shift for [acme], with a start and no end. *)
Definition dayShiftBody : json :=
  JObj [("tenant_id", JStr "t-1"); ("title", JStr "Day");
        ("starts_at", JStr "2024-01-01T00:00:00Z")].

Definition boltBody : json := JObj [("name", JStr "Bolt Patrol")].

(** * Properties *)

Section properties.
Context (msg : enc) (parse : string → option Time).

(** ** Routing *)

Lemma serve_createTenant env db q b :
  serve msg parse env db (mkRequest "POST" "/api/tenants" q b)
  = createTenant msg env (mkRequest "POST" "/api/tenants" q b) (corsHeaders (fresh db)).
Proof. reflexivity. Qed.

Lemma serve_createShift env db q b :
  serve msg parse env db (mkRequest "POST" "/api/shifts" q b)
  = createShift msg parse env (mkRequest "POST" "/api/shifts" q b) (corsHeaders (fresh db)).
Proof. reflexivity. Qed.

Lemma serve_listTenants env db q b :
  serve msg parse env db (mkRequest "GET" "/api/tenants" q b)
  = listTenants env (mkRequest "GET" "/api/tenants" q b) (corsHeaders (fresh db)).
Proof. reflexivity. Qed.

Lemma serve_listShifts env db q b :
  serve msg parse env db (mkRequest "GET" "/api/shifts" q b)
  = listShifts env (mkRequest "GET" "/api/shifts" q b) (corsHeaders (fresh db)).
Proof. reflexivity. Qed.

(** ** What [jsonError] leaves behind *)


(** ** POST /api/tenants *)


(** ** The order of the checks *)




(** ** POST /api/shifts *)





(** ** POST /api/tenants: what is written *)

Lemma insertTenant_ok env db name :
  env_execErr env = None →
  env_uuid env ∉ (Tenant_ID <$> tenants db) →
  insertTenant env db name
  = (inr (mkTenant (env_uuid env) name (env_now env)),
     mkDB (tenants db ++ [mkTenant (env_uuid env) name (env_now env)]) (shifts db)).
Proof. intros He Hn. unfold insertTenant. by rewrite He, bool_decide_false. Qed.

(** When the insert succeeds the row is stored with the name of the body
    and the id and timestamp of the store, and the status is 201; the
    body written is the [error] object of [jsonCreated]. *)
Lemma createTenant_created env db q j b :
  decodeTenantBody (Some j) = Some b →
  (2 ≤ String.length (body_Name b))%nat →
  env_execErr env = None →
  env_uuid env ∉ (Tenant_ID <$> tenants db) →
  let σ := serve msg parse env db (mkRequest "POST" "/api/tenants" q (Some j)) in
  let t := mkTenant (env_uuid env) (body_Name b) (env_now env) in
  status σ = Some 201
  ∧ tenants (tables σ) = tenants db ++ [t]
  ∧ body σ = [Doc (EObj [("error", msg)])].
Proof.
  intros Hd Hlen He Hn. rewrite serve_createTenant. unfold createTenant.
  cbn [Body]. rewrite Hd, bool_decide_false by lia.
  unfold QueryRow_insertTenant. cbn [tables corsHeaders fresh onResp].
  by rewrite insertTenant_ok.
Qed.

(** C1: the handler run on a valid body with a store that accepts the
    insert: the status is 201 and the row is stored, and the body is the
    object with the single member [error], not the Tenant record. *)
Theorem createTenant_created_body_not_tenant q :
  let σ := serve msg parse (envOK "t-1" 1000) emptyDB
             (mkRequest "POST" "/api/tenants" q (Some acmeBody)) in
  status σ = Some 201
  ∧ tables σ = mkDB [acme] []
  ∧ body σ = [Doc (EObj [("error", msg)])]
  ∧ body σ ≠ [Doc (encTenant acme)].
Proof. by split_and!. Qed.

(** Whatever the valid body and the error of the store, a failed insert
    leaves two documents in the body and a second [WriteHeader]. *)
Lemma createTenant_insert_error env db q j b e :
  decodeTenantBody (Some j) = Some b →
  (2 ≤ String.length (body_Name b))%nat →
  env_execErr env = Some e →
  let σ := serve msg parse env db (mkRequest "POST" "/api/tenants" q (Some j)) in
  status σ = Some 500
  ∧ body σ = [errorDoc e; Doc (EObj [("error", msg)])]
  ∧ rw_superfluous (resp σ) = [201]
  ∧ tables σ = db.
Proof.
  intros Hd Hlen He. rewrite serve_createTenant. unfold createTenant.
  cbn [Body]. rewrite Hd, bool_decide_false by lia.
  unfold QueryRow_insertTenant, insertTenant. cbn [tables corsHeaders fresh onResp].
  by rewrite He.
Qed.

(** C9: the handler run on a valid body with a store that fails the
    insert: after the 500 and its error object, [jsonCreated] still runs,
    so a second [WriteHeader] (201) is issued and a second document is
    written into the same body. *)
Theorem createTenant_failed_insert_writes_twice db q e :
  let σ := serve msg parse (envDown e) db
             (mkRequest "POST" "/api/tenants" q (Some acmeBody)) in
  status σ = Some 500
  ∧ body σ = [errorDoc e; Doc (EObj [("error", msg)])]
  ∧ rw_superfluous (resp σ) = [201]
  ∧ tables σ = db.
Proof. by split_and!. Qed.

(** The sibling path: a failed insert in [createShift] returns after the
    error, and the body is the error object alone. *)
Lemma createShift_failed_insert_returns db q e :
  let σ := serve msg parse (envDown e) db
             (mkRequest "POST" "/api/shifts" q
                (obj [("tenant_id", JStr "t-1"); ("title", JStr "Night")])) in
  status σ = Some 500 ∧ body σ = [errorDoc e] ∧ rw_superfluous (resp σ) = [].
Proof. by split_and!. Qed.

(** ** OPTIONS *)

(** The only pattern an OPTIONS request can match is the one registered
    without a method, [/healthz]: no handler wrapped in [withCORS] is ever
    run for it. *)
Lemma findHandler_OPTIONS p rt : findHandler "OPTIONS" p = Some rt → rt = Healthz.
Proof.
  unfold findHandler, patterns, patternMatches. cbn.
  repeat (case_bool_decide; cbn); intros Hrt; by simplify_eq.
Qed.

(** What [withCORS] does with an OPTIONS request that reaches it. *)
Lemma withCORS_preflight next r σ :
  Method r = "OPTIONS" →
  withCORS next r σ = onResp (rw_WriteHeader 204) (corsHeaders σ).
Proof. intros Hm. unfold withCORS. by rewrite bool_decide_true. Qed.

(** C8: an OPTIONS request to a registered /api path matches none of the
    method patterns of the mux: the answer is 405 with an [Allow] header
    and a text body, without the CORS headers; to an unregistered /api
    path it is 404.  [withCORS] is not reached. *)
Theorem options_preflight_not_routed env db :
  let σ := serve msg parse env db (OPTIONS "/api/tenants") in
  let σ' := serve msg parse env db (OPTIONS "/api/shifts") in
  let σ'' := serve msg parse env db (OPTIONS "/api/unknown") in
  (status σ = Some 405
   ∧ sentHeader σ "Allow" = Some "GET, HEAD, POST"
   ∧ sentHeader σ "Access-Control-Allow-Origin" = None
   ∧ body σ = [Raw ("Method Not Allowed" +:+ newline)])
  ∧ (status σ' = Some 405 ∧ sentHeader σ' "Access-Control-Allow-Origin" = None)
  ∧ (status σ'' = Some 404 ∧ sentHeader σ'' "Access-Control-Allow-Origin" = None
     ∧ body σ'' = [Raw ("404 page not found" +:+ newline)]).
Proof. by vm_compute. Qed.

(** ** Reading the rows *)

Lemma foldl_append_Some {A} (l0 data : list A) :
  foldl append (Some l0) data = Some (l0 ++ data).
Proof.
  revert l0. induction data as [|x data IH]; intros l0; cbn.
  - by rewrite app_nil_r.
  - by rewrite IH, <- app_assoc.
Qed.

Lemma foldl_append_collected {A} (data : list A) :
  foldl append None data = collected data.
Proof. destruct data as [|x data]; [done|]. cbn. by rewrite foldl_append_Some. Qed.

Lemma scanRows_outcome {A} scanErr i (data : list A) out :
  (∃ e, scanRows scanErr i data out = inl e)
  ∨ scanRows scanErr i data out = inr (foldl append out data).
Proof.
  revert i out. induction data as [|x data IH]; intros i out; cbn; [by right|].
  destruct scanErr as [[n e]|]; [|apply IH].
  case_bool_decide; [left; by exists e|apply IH].
Qed.

Lemma scanRows_noErr {A} i (data : list A) out :
  scanRows None i data out = inr (foldl append out data).
Proof. revert i out. induction data as [|x data IH]; intros i out; cbn; [done|apply IH]. Qed.

(** ** ORDER BY created_at DESC *)

#[local] Instance newestFirst_trans {A} (created : A → Time) :
  Transitive (newestFirst created).
Proof. intros a b c. unfold newestFirst. lia. Qed.

#[local] Instance newestFirst_total {A} (created : A → Time) :
  Total (newestFirst created).
Proof. intros a b. unfold newestFirst. lia. Qed.

Lemma orderByCreatedDesc_sorted {A} (created : A → Time) l :
  StronglySorted (newestFirst created) (orderByCreatedDesc created l).
Proof. apply StronglySorted_merge_sort; apply _. Qed.

Lemma orderByCreatedDesc_perm {A} (created : A → Time) l :
  orderByCreatedDesc created l ≡ₚ l.
Proof. apply merge_sort_Permutation. Qed.

Lemma orderByCreatedDesc_nil {A} (created : A → Time) l :
  orderByCreatedDesc created l = [] ↔ l = [].
Proof.
  split; intros H.
  - apply Permutation_nil_r. by rewrite <- H, orderByCreatedDesc_perm.
  - by subst.
Qed.

(** ** GET /api/tenants *)

Lemma listTenants_run env db q b :
  let σ := serve msg parse env db (mkRequest "GET" "/api/tenants" q b) in
  let rows := orderByCreatedDesc Tenant_CreatedAt (tenants db) in
  issued σ = [SelectTenants] ∧ tables σ = db
  ∧ listResponse env σ (encSlice encTenant (collected rows)).
Proof.
  cbv zeta. rewrite serve_listTenants.
  unfold listTenants, Query_tenants, selectTenants, listResponse, noFault.
  cbn [tables corsHeaders fresh onResp].
  destruct (env_execErr env) as [e|] eqn:He.
  { split_and!; [done..|by intros [? _]|right; eauto]. }
  cbn [rows_data rows_scanErr rows_err].
  destruct (scanRows_outcome (env_scanErr env) 0
              (orderByCreatedDesc Tenant_CreatedAt (tenants db)) None) as [[e Hs]|Hs].
  { rewrite Hs. split_and!; [done..| |right; eauto].
    intros (_ & Hn & _). rewrite Hn, scanRows_noErr in Hs. done. }
  rewrite Hs, foldl_append_collected.
  destruct (env_rowsErr env) as [e|] eqn:Hr.
  { split_and!; [done..|by intros (_ & _ & ?)|right; eauto]. }
  split_and!; [done..|by left].
Qed.

(** C6, amended: when the store does not fail the answer is 200; the body
    is the array of the stored tenants, newest created_at first, when
    there is at least one, and [null] (the nil slice) when there is
    none. *)
Theorem listTenants_newest_first env db q b :
  noFault env →
  let σ := serve msg parse env db (mkRequest "GET" "/api/tenants" q b) in
  let rows := orderByCreatedDesc Tenant_CreatedAt (tenants db) in
  status σ = Some 200
  ∧ body σ = [Doc (match tenants db with
                   | [] => ENull
                   | _ => EArr (encTenant <$> rows)
                   end)]
  ∧ StronglySorted (newestFirst Tenant_CreatedAt) rows
  ∧ rows ≡ₚ tenants db
  ∧ tables σ = db.
Proof.
  intros Hok. cbv zeta.
  destruct (listTenants_run env db q b) as (_ & Htab & Hst & Hbody).
  specialize (Hst Hok).
  split_and!; [done| |apply orderByCreatedDesc_sorted|apply orderByCreatedDesc_perm|done].
  destruct Hbody as [[_ ->]|[H500 _]]; [|congruence].
  do 2 f_equal.
  destruct (tenants db) as [|t l] eqn:Ht; [done|].
  destruct (orderByCreatedDesc Tenant_CreatedAt (t :: l)) as [|r rs] eqn:Hr; [|done].
  by apply orderByCreatedDesc_nil in Hr.
Qed.

(** ** GET /api/shifts *)

Lemma url_Get_absent q key : url_Has q key = false → url_Get q key = "".
Proof.
  unfold url_Has. intros H. apply bool_decide_eq_false in H.
  induction q as [|[k v] q IH]; cbn; [done|].
  rewrite fmap_cons in H. cbn in H.
  destruct (decide (k = key)) as [->|Hk].
  - destruct H. by left.
  - apply IH. intros Hin. apply H. by right.
Qed.

(** The rows the handler asks for: those of the tenant when the value of
    [tenant_id] is not empty, all of them otherwise. *)
Lemma listShifts_run env db q b :
  let X := url_Get q "tenant_id" in
  let σ := serve msg parse env db (mkRequest "GET" "/api/shifts" q b) in
  let args := if bool_decide (X ≠ "") then Some X else None in
  let rows := orderByCreatedDesc Shift_CreatedAt
                (match args with
                 | Some x => filter (λ s, Shift_TenantID s = x) (shifts db)
                 | None => shifts db
                 end) in
  issued σ = [SelectShifts args] ∧ tables σ = db
  ∧ listResponse env σ (encSlice encShift (collected rows)).
Proof.
  cbv zeta. rewrite serve_listShifts.
  unfold listShifts, Query_shifts, selectShifts, listResponse, noFault.
  cbn [tables corsHeaders fresh onResp Query].
  set (args := if bool_decide (url_Get q "tenant_id" ≠ "") then _ else _).
  destruct (env_execErr env) as [e|] eqn:He.
  { split_and!; [done..|by intros [? _]|right; eauto]. }
  cbn [rows_data rows_scanErr rows_err].
  set (rows := orderByCreatedDesc Shift_CreatedAt _).
  destruct (scanRows_outcome (env_scanErr env) 0 rows None) as [[e Hs]|Hs].
  { rewrite Hs. split_and!; [done..| |right; eauto].
    intros (_ & Hn & _). rewrite Hn, scanRows_noErr in Hs. done. }
  rewrite Hs, foldl_append_collected.
  destruct (env_rowsErr env) as [e|] eqn:Hr.
  { split_and!; [done..|by intros (_ & _ & ?)|right; eauto]. }
  split_and!; [done..|by left].
Qed.


(** C10: a [tenant_id] parameter that is present with the empty value is
    handled as an absent one: the two requests leave the same response
    and send the same unfiltered SELECT, whose rows are the shifts of all
    tenants. *)
Theorem listShifts_empty_tenant_id_as_absent env db q q' b :
  url_Has q "tenant_id" = true →
  url_Get q "tenant_id" = "" →
  url_Has q' "tenant_id" = false →
  let σ := serve msg parse env db (mkRequest "GET" "/api/shifts" q b) in
  let σ' := serve msg parse env db (mkRequest "GET" "/api/shifts" q' b) in
  σ = σ'
  ∧ issued σ = [SelectShifts None]
  ∧ listResponse env σ
      (encSlice encShift (collected (orderByCreatedDesc Shift_CreatedAt (shifts db)))).
Proof.
  intros _ Hempty Habs. cbv zeta. split.
  - rewrite !serve_listShifts. unfold listShifts. cbn [Query].
    by rewrite Hempty, (url_Get_absent _ _ Habs).
  - destruct (listShifts_run env db q b) as (Hiss & _ & Hresp).
    cbv zeta in Hiss, Hresp.
    rewrite Hempty, bool_decide_false in Hiss, Hresp by naive_solver.
    done.
Qed.
(** * More of the server *)

(** ** Every way through the mux *)

Lemma findHandler_unregistered m p :
  p ≠ "/healthz" → p ≠ "/api/tenants" → p ≠ "/api/shifts" →
  findHandler m p = None ∧ matchingMethods p = [].
Proof.
  intros H1 H2 H3.
  assert (∀ x, x ≠ p → bool_decide (x = p) = false) as Hx.
  { intros x Hne. by apply bool_decide_false. }
  split.
  - unfold findHandler, patterns, patternMatches. cbn [List.filter fst snd].
    rewrite !Hx by done. done.
  - unfold matchingMethods. set (ms := omap _ patterns).
    assert (ms = []) as ->; [|done].
    subst ms. unfold patterns. cbn [omap list_omap fst snd].
    rewrite !Hx by done. done.
Qed.

Lemma findHandler_other_method m p :
  p = "/api/tenants" ∨ p = "/api/shifts" →
  m ≠ "GET" → m ≠ "HEAD" → m ≠ "POST" →
  findHandler m p = None ∧ join ", " (matchingMethods p) = "GET, HEAD, POST"
  ∧ matchingMethods p ≠ [].
Proof.
  intros Hp H1 H2 H3.
  destruct Hp as [-> | ->].
  all: split; [|by split].
  all: unfold findHandler, patterns, patternMatches, methodMatches.
  all: cbn [List.filter fst snd].
  all: rewrite !(bool_decide_false (_ = m)), !(bool_decide_false (m = _)) by done.
  all: reflexivity.
Qed.

Lemma serve_HEAD_tenants env db q b :
  serve msg parse env db (mkRequest "HEAD" "/api/tenants" q b)
  = listTenants env (mkRequest "HEAD" "/api/tenants" q b) (corsHeaders (fresh db)).
Proof. reflexivity. Qed.

Lemma serve_HEAD_shifts env db q b :
  serve msg parse env db (mkRequest "HEAD" "/api/shifts" q b)
  = listShifts env (mkRequest "HEAD" "/api/shifts" q b) (corsHeaders (fresh db)).
Proof. reflexivity. Qed.

Lemma listTenants_outcome env r σ :
  (∃ e, listTenants env r σ = jsonError 500 e (send SelectTenants σ))
  ∨ (∃ d, listTenants env r σ = jsonOK d (send SelectTenants σ)).
Proof.
  unfold listTenants, Query_tenants, selectTenants.
  destruct (env_execErr env) as [e|]; [left; by exists e|].
  cbn [rows_data rows_scanErr rows_err].
  destruct (scanRows_outcome (env_scanErr env) 0
              (orderByCreatedDesc Tenant_CreatedAt (tenants (tables σ))) None)
    as [[e ->]| ->]; [left; by exists e|].
  destruct (env_rowsErr env) as [e|]; [left; by exists e|right; by eexists].
Qed.

Lemma listShifts_outcome env r σ :
  ∃ q, (∃ e, listShifts env r σ = jsonError 500 e (send q σ))
       ∨ (∃ d, listShifts env r σ = jsonOK d (send q σ)).
Proof.
  unfold listShifts, Query_shifts, selectShifts.
  set (args := if bool_decide (url_Get (Query r) "tenant_id" ≠ "") then _ else _).
  exists (SelectShifts args).
  destruct (env_execErr env) as [e|]; [left; by exists e|].
  cbn [rows_data rows_scanErr rows_err].
  set (rows := orderByCreatedDesc Shift_CreatedAt _).
  destruct (scanRows_outcome (env_scanErr env) 0 rows None) as [[e ->]| ->];
    [left; by exists e|].
  destruct (env_rowsErr env) as [e|]; [left; by exists e|right; by eexists].
Qed.

Lemma insertTenant_cases env db name :
  (∃ e, insertTenant env db name = (inl e, db))
  ∨ ((env_uuid env ∉ (Tenant_ID <$> tenants db))
     ∧ insertTenant env db name
       = (inr (mkTenant (env_uuid env) name (env_now env)),
          mkDB (tenants db ++ [mkTenant (env_uuid env) name (env_now env)]) (shifts db))).
Proof.
  unfold insertTenant. destruct (env_execErr env) as [e|]; [left; by eexists|].
  case_bool_decide; [left; by eexists|by right].
Qed.

Lemma insertShift_cases env db tid title st et :
  (∃ e, insertShift env db tid title st et = (inl e, db))
  ∨ (tid ∈ (Tenant_ID <$> tenants db)
     ∧ (env_uuid env ∉ (Shift_ID <$> shifts db))
     ∧ insertShift env db tid title st et
       = (inr (mkShift (env_uuid env) tid title st et (env_now env)),
          mkDB (tenants db)
            (shifts db ++ [mkShift (env_uuid env) tid title st et (env_now env)]))).
Proof.
  unfold insertShift. destruct (env_execErr env) as [e|]; [left; by eexists|].
  case_bool_decide; [left; by eexists|].
  case_bool_decide; [by right|left; by eexists].
Qed.

(** The return points of the mux and of the handlers are all there is: a
    request ends in one of the outcomes. *)
Lemma serve_outcome env db r : Outcome msg env db r (serve msg parse env db r).
Proof.
  destruct r as [m p q b].
  destruct (decide (p = "/healthz")) as [->|Hh].
  { by apply served_healthz. }
  destruct (decide (p = "/api/tenants")) as [->|Ht].
  { destruct (decide (m = "GET")) as [->|Hg].
    { rewrite serve_listTenants.
      destruct (listTenants_outcome env (mkRequest "GET" "/api/tenants" q b)
                  (corsHeaders (fresh db))) as [[e ->]|[d ->]].
      - apply served_store_error.
      - apply served_list. by left. }
    destruct (decide (m = "HEAD")) as [->|Hhd].
    { rewrite serve_HEAD_tenants.
      destruct (listTenants_outcome env (mkRequest "HEAD" "/api/tenants" q b)
                  (corsHeaders (fresh db))) as [[e ->]|[d ->]].
      - apply served_store_error.
      - apply served_list. by right. }
    destruct (decide (m = "POST")) as [->|Hp].
    { rewrite serve_createTenant. unfold createTenant. cbn [Body].
      destruct (decodeTenantBody b) as [tb|]; [|apply served_rejected; auto].
      case_bool_decide; [apply served_rejected; auto|].
      unfold QueryRow_insertTenant. cbn [tables corsHeaders fresh onResp].
      destruct (insertTenant_cases env db (body_Name tb)) as [[e ->]|[Hn ->]].
      - by apply served_tenant_error.
      - by apply served_tenant_created. }
    unfold serve, ServeHTTP. cbn [Method Path].
    destruct (findHandler_other_method m "/api/tenants") as (-> & Hj & Hne); auto.
    destruct (matchingMethods "/api/tenants") as [|x ms] eqn:Hms; [done|].
    rewrite Hj. apply served_not_allowed; auto. }
  destruct (decide (p = "/api/shifts")) as [->|Hs].
  { destruct (decide (m = "GET")) as [->|Hg].
    { rewrite serve_listShifts.
      destruct (listShifts_outcome env (mkRequest "GET" "/api/shifts" q b)
                  (corsHeaders (fresh db))) as (st & [[e ->]|[d ->]]).
      - apply served_store_error.
      - apply served_list. by left. }
    destruct (decide (m = "HEAD")) as [->|Hhd].
    { rewrite serve_HEAD_shifts.
      destruct (listShifts_outcome env (mkRequest "HEAD" "/api/shifts" q b)
                  (corsHeaders (fresh db))) as (st & [[e ->]|[d ->]]).
      - apply served_store_error.
      - apply served_list. by right. }
    destruct (decide (m = "POST")) as [->|Hp].
    { rewrite serve_createShift. unfold createShift. cbn [Body].
      destruct (decodeShiftBody b) as [sb|]; [|apply served_rejected; auto].
      destruct (bool_decide (body_TenantID sb = "") || bool_decide (body_Title sb = ""));
        [apply served_rejected; auto|].
      destruct (optionalTime parse (body_StartsAt sb)) as [st|];
        [|apply served_rejected; auto].
      destruct (optionalTime parse (body_EndsAt sb)) as [et|];
        [|apply served_rejected; auto].
      unfold QueryRow_insertShift. cbn [tables corsHeaders fresh onResp].
      destruct (insertShift_cases env db (body_TenantID sb) (body_Title sb) st et)
        as [[e ->]|(Hin & Hn & ->)].
      - apply (served_store_error msg env db _
                 (InsertShift (body_TenantID sb) (body_Title sb) st et) e).
      - by apply served_shift_created. }
    unfold serve, ServeHTTP. cbn [Method Path].
    destruct (findHandler_other_method m "/api/shifts") as (-> & Hj & Hne); auto.
    destruct (matchingMethods "/api/shifts") as [|x ms] eqn:Hms; [done|].
    rewrite Hj. apply served_not_allowed; auto. }
  unfold serve, ServeHTTP. cbn [Method Path].
  destruct (findHandler_unregistered m p) as [-> ->]; auto.
  by apply served_not_found.
Qed.

(** ** What holds for every request *)

(** X1: [/healthz] is registered without a method: whatever the method,
    query and body, the answer is 200 with the body [ok]; the store is not
    touched and the response carries no CORS header. *)
Theorem healthz_any_method env db m q b :
  let σ := serve msg parse env db (mkRequest m "/healthz" q b) in
  status σ = Some 200
  ∧ body σ = [Raw "ok"]
  ∧ issued σ = []
  ∧ tables σ = db
  ∧ sentHeader σ "Access-Control-Allow-Origin" = None.
Proof. by vm_compute. Qed.


(** X3: on [/api/tenants] and [/api/shifts] a method other than GET, HEAD
    and POST is answered 405 by the mux, with the [Allow] header listing
    the three; no handler runs and the store is not touched. *)
Theorem other_method_405 env db m p q b :
  p = "/api/tenants" ∨ p = "/api/shifts" →
  m ≠ "GET" → m ≠ "HEAD" → m ≠ "POST" →
  let σ := serve msg parse env db (mkRequest m p q b) in
  status σ = Some 405
  ∧ sentHeader σ "Allow" = Some "GET, HEAD, POST"
  ∧ sentHeader σ "Access-Control-Allow-Origin" = None
  ∧ issued σ = []
  ∧ tables σ = db.
Proof.
  intros Hp H1 H2 H3. unfold serve, ServeHTTP. cbn [Method Path].
  destruct (findHandler_other_method m p) as (-> & Hj & Hne); auto.
  destruct (matchingMethods p) as [|x ms] eqn:Hms; [done|].
  rewrite Hj. by vm_compute.
Qed.

(** X4: every response of the four API routes (GET, HEAD or POST on
    [/api/tenants] and [/api/shifts]) is sent with the three CORS headers
    of [withCORS], whether the handler succeeds, rejects the request or
    the store fails. *)
Theorem api_response_has_cors_headers env db m p q b :
  p = "/api/tenants" ∨ p = "/api/shifts" →
  m = "GET" ∨ m = "HEAD" ∨ m = "POST" →
  let σ := serve msg parse env db (mkRequest m p q b) in
  sentHeader σ "Access-Control-Allow-Origin" = Some "*"
  ∧ sentHeader σ "Access-Control-Allow-Headers" = Some "Content-Type, Authorization"
  ∧ sentHeader σ "Access-Control-Allow-Methods" = Some "GET, POST, OPTIONS".
Proof.
  intros Hp Hm. cbv zeta.
  destruct (serve_outcome env db (mkRequest m p q b)); cbn [Method Path] in *.
  all: try (exfalso; intuition congruence).
  all: by vm_compute.
Qed.

(** X5: a request answered with a 4xx status has sent no statement to the
    store and left the tables as they were. *)
Theorem client_error_no_store env db r c :
  400 ≤ c < 500 →
  status (serve msg parse env db r) = Some c →
  issued (serve msg parse env db r) = [] ∧ tables (serve msg parse env db r) = db.
Proof.
  intros Hc Hs.
  destruct (serve_outcome env db r); try done.
  all: vm_compute in Hs; simplify_eq; lia.
Qed.



(** X8: a request sends at most one statement, and the tables change in
    one way only: a POST answered 201 appends one row to the table of its
    path.  No row is ever removed or rewritten, and GET, HEAD and every
    failing request leave the tables as they were. *)
Theorem serve_append_only env db r :
  let σ := serve msg parse env db r in
  (length (issued σ) ≤ 1)%nat
  ∧ ((tables σ = db ∧ status σ ≠ Some 201)
     ∨ (∃ t, tables σ = mkDB (tenants db ++ [t]) (shifts db)
             ∧ issued σ = [InsertTenant (Tenant_Name t)]
             ∧ Method r = "POST" ∧ Path r = "/api/tenants" ∧ status σ = Some 201)
     ∨ (∃ s, tables σ = mkDB (tenants db) (shifts db ++ [s])
             ∧ issued σ = [InsertShift (Shift_TenantID s) (Shift_Title s)
                             (Shift_StartedAt s) (Shift_EndsAt s)]
             ∧ Method r = "POST" ∧ Path r = "/api/shifts" ∧ status σ = Some 201)).
Proof.
  cbv zeta. destruct (serve_outcome env db r) as [| | |code m Hm Hc| | | | |].
  1-3, 5-7: split; [cbn; lia|left; by split].
  - split; [cbn; lia|left]. split; [done|]. destruct Hc as [-> | ->]; done.
  - split; [cbn; lia|right; left]. eexists. by split_and!.
  - split; [cbn; lia|right; right]. eexists. by split_and!.
Qed.

(** X16: a 200 or 201 response of the four API routes is sent with
    [Content-Type: application/json], set by [jsonOK] and [jsonCreated]
    before the status is written. *)
Theorem api_success_is_json env db m p q b :
  p = "/api/tenants" ∨ p = "/api/shifts" →
  status (serve msg parse env db (mkRequest m p q b)) = Some 200
  ∨ status (serve msg parse env db (mkRequest m p q b)) = Some 201 →
  sentHeader (serve msg parse env db (mkRequest m p q b)) "Content-Type"
  = Some "application/json".
Proof.
  intros Hp Hs.
  destruct (serve_outcome env db (mkRequest m p q b)) as [Hh| | |code e Hm Hc| | | | |];
    cbn [Method Path] in *.
  - exfalso. intuition congruence.
  - vm_compute in Hs. intuition congruence.
  - vm_compute in Hs. intuition congruence.
  - exfalso. vm_compute in Hs. destruct Hc as [-> | ->]; intuition congruence.
  - vm_compute in Hs. intuition congruence.
  - by vm_compute.
  - vm_compute in Hs. intuition congruence.
  - by vm_compute.
  - by vm_compute.
Qed.

(** ** The constraints of the schema are kept *)

Lemma integrity_add_tenant db t :
  integrity db →
  Tenant_ID t ∉ (Tenant_ID <$> tenants db) →
  integrity (mkDB (tenants db ++ [t]) (shifts db)).
Proof.
  intros (Ht & Hs & Hfk) Hn. split_and!; cbn [tenants shifts]; [|done|].
  - rewrite fmap_app. apply NoDup_app. split_and!; [done| |apply NoDup_singleton].
    intros x Hx Hx'. cbn in Hx'. apply list_elem_of_singleton in Hx' as ->. done.
  - eapply Forall_impl; [exact Hfk|]. intros s Hs'. rewrite fmap_app.
    apply elem_of_app. by left.
Qed.

Lemma integrity_add_shift db s :
  integrity db →
  Shift_ID s ∉ (Shift_ID <$> shifts db) →
  Shift_TenantID s ∈ (Tenant_ID <$> tenants db) →
  integrity (mkDB (tenants db) (shifts db ++ [s])).
Proof.
  intros (Ht & Hs & Hfk) Hn Hin. split_and!; cbn [tenants shifts]; [done| |].
  - rewrite fmap_app. apply NoDup_app. split_and!; [done| |apply NoDup_singleton].
    intros x Hx Hx'. cbn in Hx'. apply list_elem_of_singleton in Hx' as ->. done.
  - apply Forall_app. split; [done|]. by apply Forall_singleton.
Qed.

(** X9: a request served on tables that satisfy the constraints of the
    schema (unique ids in both tables, every shift naming a stored tenant)
    leaves tables that satisfy them: a generated id that is taken, or a
    shift for a tenant that is not stored, is refused by the store. *)
Theorem serve_keeps_integrity env db r :
  integrity db → integrity (tables (serve msg parse env db r)).
Proof.
  intros Hdb.
  destruct (serve_outcome env db r) as [| | | | | | |name _ _ Hn|tid title st et _ _ Hin Hn];
    try done; cbn [tables jsonCreated onResp].
  - by apply integrity_add_tenant.
  - by apply integrity_add_shift.
Qed.

(** X10: whatever requests are served one after the other on the empty
    store, and whatever the store does during each, the tables reached
    satisfy the constraints of the schema. *)
Theorem serveAll_integrity l : integrity (serveAll msg parse l emptyDB).
Proof.
  assert (∀ db, integrity db → integrity (serveAll msg parse l db)) as H.
  { induction l as [|[env r] l IH]; intros db Hdb; [done|].
    apply (IH (tables (serve msg parse env db r))).
    destruct (serve_outcome env db r) as [| | | | | | |name _ _ Hn|tid title st et _ _ Hin Hn];
      try done; cbn [tables jsonCreated onResp].
    - by apply integrity_add_tenant.
    - by apply integrity_add_shift. }
  apply H. split_and!; [apply NoDup_nil_2..|done].
Qed.

Lemma serve_keeps_rows env db r :
  tenants db `prefix_of` tenants (tables (serve msg parse env db r))
  ∧ shifts db `prefix_of` shifts (tables (serve msg parse env db r)).
Proof.
  destruct (serve_outcome env db r); cbn [tables tenants shifts jsonCreated onResp];
    split; try done; by apply prefix_app_r.
Qed.

Lemma serveAll_cons env r l db :
  serveAll msg parse ((env, r) :: l) db
  = serveAll msg parse l (tables (serve msg parse env db r)).
Proof. reflexivity. Qed.

(** X11: no sequence of requests removes or rewrites a stored row: the
    rows of both tables before the sequence are the first rows after
    it. *)
Theorem serveAll_keeps_rows l db :
  tenants db `prefix_of` tenants (serveAll msg parse l db)
  ∧ shifts db `prefix_of` shifts (serveAll msg parse l db).
Proof.
  revert db. induction l as [|[env r] l IH]; intros db; [done|].
  rewrite serveAll_cons.
  destruct (IH (tables (serve msg parse env db r))) as [IHt IHs].
  destruct (serve_keeps_rows env db r) as [Ht Hs].
  split; etrans; eauto.
Qed.

(** ** POST /api/shifts: what is stored *)



(** ** Creating, then listing *)

Lemma newest_is_first {A} (created : A → Time) rows l t :
  StronglySorted (newestFirst created) rows →
  rows ≡ₚ l ++ [t] →
  (∀ x, x ∈ l → created x < created t) →
  head rows = Some t.
Proof.
  intros Hs Hp Hlt. destruct rows as [|x rest].
  { symmetry in Hp. apply Permutation_nil_r in Hp. by destruct l. }
  cbn. f_equal. apply StronglySorted_inv in Hs as [_ Hx].
  assert (x ∈ l ++ [t]) as Hin by (rewrite <- Hp; by left).
  apply elem_of_app in Hin as [Hin|Hin]; [|by apply list_elem_of_singleton in Hin].
  exfalso. specialize (Hlt x Hin).
  assert (t ∈ x :: rest) as Ht by (rewrite Hp, elem_of_app; right; by left).
  apply elem_of_cons in Ht as [->|Ht]; [lia|].
  rewrite Forall_forall in Hx. specialize (Hx t Ht). unfold newestFirst in Hx. lia.
Qed.

(** X13: a tenant that POST /api/tenants has stored is in the array of
    the next GET /api/tenants (when the store does not fail), beside the
    tenants stored before; when its created_at is later than theirs it is
    the first element. *)
Theorem createTenant_then_listed env env' db q q' j b b' :
  decodeTenantBody (Some j) = Some b →
  (2 ≤ String.length (body_Name b))%nat →
  env_execErr env = None →
  env_uuid env ∉ (Tenant_ID <$> tenants db) →
  noFault env' →
  let t := mkTenant (env_uuid env) (body_Name b) (env_now env) in
  let σ := serve msg parse env db (mkRequest "POST" "/api/tenants" q (Some j)) in
  let σ' := serve msg parse env' (tables σ) (mkRequest "GET" "/api/tenants" q' b') in
  ∃ rows, status σ' = Some 200
          ∧ body σ' = [Doc (EArr (encTenant <$> rows))]
          ∧ t ∈ rows
          ∧ rows ≡ₚ tenants db ++ [t]
          ∧ ((∀ x, x ∈ tenants db → Tenant_CreatedAt x < env_now env) →
             head rows = Some t).
Proof.
  intros Hd Hlen He Hn Hok. cbv zeta.
  destruct (createTenant_created env db q j b Hd Hlen He Hn) as (_ & Hten & _).
  set (σ := serve msg parse env db _) in *.
  destruct (listTenants_run env' (tables σ) q' b') as (_ & _ & Hst & Hbody).
  specialize (Hst Hok). rewrite Hten in Hbody.
  set (rows := orderByCreatedDesc Tenant_CreatedAt _) in *.
  assert (rows ≡ₚ tenants db ++ [mkTenant (env_uuid env) (body_Name b) (env_now env)])
    as Hperm by apply orderByCreatedDesc_perm.
  exists rows. split_and!; [done| |by rewrite Hperm, elem_of_app, list_elem_of_singleton; right|done|].
  - destruct Hbody as [[_ ->]|[H500 _]]; [|congruence].
    destruct rows as [|x rest]; [|done].
    symmetry in Hperm. apply Permutation_nil_r in Hperm. by destruct (tenants db).
  - intros Hlt. eapply newest_is_first; [apply orderByCreatedDesc_sorted|exact Hperm|done].
Qed.



End properties.

(** * The properties on concrete requests *)






(** C6 as stated fails: with no tenant stored the body is [null], not the
    empty array; the status is still 200. *)
Lemma listTenants_empty_body_is_null :
  tenants emptyDB = []
  ∧ status (run (envOK "" 0) emptyDB (GET "/api/tenants" [])) = Some 200
  ∧ body (run (envOK "" 0) emptyDB (GET "/api/tenants" [])) = [Doc ENull]
  ∧ body (run (envOK "" 0) emptyDB (GET "/api/tenants" [])) ≠ [Doc (EArr [])].
Proof. split_and!; try reflexivity. intros H. vm_compute in H. discriminate H. Qed.

(** C6, amended, with two tenants stored: [bolt], created later, comes
    first. *)
Lemma listTenants_newest_first_witness :
  noFault (envOK "" 0)
  ∧ status (run (envOK "" 0) twoTenantsDB (GET "/api/tenants" [])) = Some 200
  ∧ body (run (envOK "" 0) twoTenantsDB (GET "/api/tenants" []))
    = [Doc (EArr [encTenant bolt; encTenant acme])].
Proof.
  assert (noFault (envOK "" 0)) as Hok by (repeat split).
  split; [exact Hok|].
  pose proof (listTenants_newest_first sampleMsg rfc3339 (envOK "" 0) twoTenantsDB [] None Hok)
    as (H1 & H2 & _).
  split; [exact H1|exact H2].
Defined.



(** C10 at [tenant_id=] against the request without the parameter. *)
Lemma listShifts_empty_tenant_id_as_absent_witness :
  url_Has [("tenant_id", "")] "tenant_id" = true
  ∧ url_Get [("tenant_id", "")] "tenant_id" = ""
  ∧ url_Has [] "tenant_id" = false
  ∧ run (envOK "" 0) twoTenantsDB (GET "/api/shifts" [("tenant_id", "")])
    = run (envOK "" 0) twoTenantsDB (GET "/api/shifts" [])
  ∧ issued (run (envOK "" 0) twoTenantsDB (GET "/api/shifts" [("tenant_id", "")]))
    = [SelectShifts None].
Proof.
  split; [reflexivity|]. split; [reflexivity|]. split; [reflexivity|].
  pose proof (listShifts_empty_tenant_id_as_absent sampleMsg rfc3339 (envOK "" 0) twoTenantsDB
                [("tenant_id", "")] [] None eq_refl eq_refl eq_refl) as (H1 & H2 & _).
  split; [exact H1|exact H2].
Defined.

(** * The further properties on concrete requests *)


(** X3 at [DELETE /api/tenants]. *)
Lemma other_method_405_witness :
  status (run (envOK "" 0) acmeDB (mkRequest "DELETE" "/api/tenants" [] None)) = Some 405
  ∧ tables (run (envOK "" 0) acmeDB (mkRequest "DELETE" "/api/tenants" [] None)) = acmeDB.
Proof.
  pose proof (other_method_405 sampleMsg rfc3339 (envOK "" 0) acmeDB "DELETE" "/api/tenants" [] None
                (or_introl eq_refl) ltac:(discriminate) ltac:(discriminate) ltac:(discriminate))
    as (H1 & _ & _ & _ & H2).
  split; [exact H1|exact H2].
Defined.

(** X4 at a POST /api/shifts that the handler rejects. *)
Lemma api_response_has_cors_headers_witness :
  status (run (envOK "s-9" 3000) acmeDB (POST "/api/shifts" (Some badStartsBody))) = Some 422
  ∧ sentHeader (run (envOK "s-9" 3000) acmeDB (POST "/api/shifts" (Some badStartsBody)))
      "Access-Control-Allow-Origin" = Some "*".
Proof.
  split; [reflexivity|].
  exact (proj1 (api_response_has_cors_headers sampleMsg rfc3339 (envOK "s-9" 3000) acmeDB
                  "POST" "/api/shifts" [] (Some badStartsBody)
                  (or_intror eq_refl) (or_intror (or_intror eq_refl)))).
Defined.

(** X5 at the 422 of a one-byte name. *)
Lemma client_error_no_store_witness :
  status (run (envOK "t-9" 5) acmeDB (POST "/api/tenants" (Some shortNameBody))) = Some 422
  ∧ issued (run (envOK "t-9" 5) acmeDB (POST "/api/tenants" (Some shortNameBody))) = []
  ∧ tables (run (envOK "t-9" 5) acmeDB (POST "/api/tenants" (Some shortNameBody))) = acmeDB.
Proof.
  split; [reflexivity|].
  exact (client_error_no_store sampleMsg rfc3339 (envOK "t-9" 5) acmeDB
           (POST "/api/tenants" (Some shortNameBody)) 422 ltac:(lia) eq_refl).
Defined.

Lemma integrity_acmeDB : integrity acmeDB.
Proof.
  split_and!.
  - apply NoDup_singleton.
  - apply NoDup_singleton.
  - apply Forall_singleton. by left.
Qed.

(** X9 at a shift stored for [acme]. *)
Lemma serve_keeps_integrity_witness :
  integrity acmeDB
  ∧ shifts (tables (run (envOK "s-9" 3000) acmeDB (POST "/api/shifts" (Some dayShiftBody))))
    = [nightShift; mkShift "s-9" "t-1" "Day" (Some 1704067200000000000) None 3000]
  ∧ integrity (tables (run (envOK "s-9" 3000) acmeDB (POST "/api/shifts" (Some dayShiftBody)))).
Proof.
  split; [exact integrity_acmeDB|]. split; [reflexivity|].
  exact (serve_keeps_integrity sampleMsg rfc3339 (envOK "s-9" 3000) acmeDB
           (POST "/api/shifts" (Some dayShiftBody)) integrity_acmeDB).
Defined.


(** X13 at [bolt], created after [acme]: it is listed first. *)
Lemma createTenant_then_listed_witness :
  decodeTenantBody (Some boltBody) = Some (mkTenantBody "Bolt Patrol")
  ∧ tables (run (envOK "t-2" 1500) acmeDB (POST "/api/tenants" (Some boltBody)))
    = mkDB [acme; bolt] [nightShift]
  ∧ ∃ rows,
      body (run (envOK "" 0)
              (tables (run (envOK "t-2" 1500) acmeDB (POST "/api/tenants" (Some boltBody))))
              (GET "/api/tenants" []))
      = [Doc (EArr (encTenant <$> rows))]
      ∧ head rows = Some bolt.
Proof.
  split; [reflexivity|]. split; [reflexivity|].
  destruct (createTenant_then_listed sampleMsg rfc3339 (envOK "t-2" 1500) (envOK "" 0) acmeDB
              [] [] boltBody (mkTenantBody "Bolt Patrol") None
              eq_refl ltac:(simpl; lia) eq_refl
              ltac:(apply (bool_decide_unpack _); vm_compute; exact I)
              ltac:(repeat split)) as (rows & _ & Hb & _ & _ & Hh).
  exists rows. split; [exact Hb|]. apply Hh.
  intros x Hx. apply list_elem_of_singleton in Hx as ->. simpl. lia.
Defined.



(** X16 at the list of tenants. *)
Lemma api_success_is_json_witness :
  status (run (envOK "" 0) twoTenantsDB (GET "/api/tenants" [])) = Some 200
  ∧ sentHeader (run (envOK "" 0) twoTenantsDB (GET "/api/tenants" [])) "Content-Type"
    = Some "application/json".
Proof.
  split; [reflexivity|].
  exact (api_success_is_json sampleMsg rfc3339 (envOK "" 0) twoTenantsDB "GET" "/api/tenants"
           [] None (or_introl eq_refl) (or_introl eq_refl)).
Defined.
